(** * Integration adapter and composition layer (package v2)

    A shallow embedding of the generated adapter code of
    [pkg/integrations/v2]: the composition registry [Integrations.ActiveConfigs],
    the [configWrapper] that turns a legacy (v1) exporter config into the
    uniform v2 contract, [newIntegrationFromV1] with its error-masking run
    function, the custom-unmarshaler guard [implementsMarshaller], and the
    non-Windows stub of the windows_exporter integration.

    Conventions of the embedding:
    - a Go value of interface or pointer type that may be [nil] is an
      [option]; a Go [error] result is [option error] ([None] is [nil]);
    - a Go slice that is only measured and ranged over is a list (a nil
      slice and an empty one behave alike); a slice stored in a result is an
      [option (list A)], [None] being the nil slice;
    - a Go function with results [(T, error)] returns a pair, except the
      legacy constructor, which returns a capability or an error;
    - a method with a pointer receiver that mutates its receiver returns the
      new receiver next to its results;
    - a run-time panic (nil dereference) is the [None] of an outer [option];
    - a call that may block is a function of the calling time that returns
      the time at which it comes back, or [None] when it never does. *)

From stdpp Require Import base option list strings gmap.

Open Scope string_scope.
Open Scope list_scope.
Open Scope nat_scope.

(** ** Package errors *)

Module errors.

(** The error values that reach the adapter: the two sentinels of package
    context, an [errors.New] string error, and an error wrapping another
    one ([fmt.Errorf] with the [%w] verb). *)
Inductive error : Type :=
| Canceled
| DeadlineExceeded
| errorString (s : string)
| wrapError (msg : string) (err : error).

#[global] Instance error_eq_dec : EqDecision error.
Proof. solve_decision. Defined.

(** [errors.New]. *)
Definition New (s : string) : error := errorString s.

(** [err.Error()]. *)
Definition Error (e : error) : string :=
  match e with
  | Canceled => "context canceled"
  | DeadlineExceeded => "context deadline exceeded"
  | errorString s => s
  | wrapError msg _ => msg
  end.

(** [errors.Unwrap]. *)
Definition Unwrap (e : error) : option error :=
  match e with
  | wrapError _ inner => Some inner
  | _ => None
  end.

(** [errors.Is]: [err] or some error of its [Unwrap] chain equals
    [target]. *)
Fixpoint Is (err target : error) : bool :=
  bool_decide (err = target) ||
  match err with
  | wrapError _ inner => Is inner target
  | _ => false
  end.

(** [fmt.Errorf(prefix + "%w", err)]. *)
Definition Errorf_w (prefix : string) (err : error) : error :=
  wrapError (prefix +:+ Error err) err.

End errors.

Export errors(error).

(** ** Package context *)

Module context.

(** Why a context ends: [cancel()] was called, or its deadline passed. *)
Inductive cause : Type := ByCancel | ByDeadline.

(** A context is described by its fate on a discrete time line: it is
    never done, or it becomes done at time [t] for a [cause]. *)
Inductive Context : Type :=
| Never
| DoneAt (t : nat) (why : cause).

Definition cause_err (why : cause) : error :=
  match why with
  | ByCancel => errors.Canceled
  | ByDeadline => errors.DeadlineExceeded
  end.

(** [ctx.Err()] read at time [now]: nil while the context is active. *)
Definition Err (ctx : Context) (now : nat) : option error :=
  match ctx with
  | Never => None
  | DoneAt t why => if decide (t ≤ now) then Some (cause_err why) else None
  end.

(** [<-ctx.Done()] started at time [now]: the time at which the receive
    returns, [None] when the channel is never closed. *)
Definition Done_recv (ctx : Context) (now : nat) : option nat :=
  match ctx with
  | Never => None
  | DoneAt t _ => Some (now `max` t)
  end.

End context.

Export context(Context).

(** The outcome of a blocking [Run(ctx)] call started at some time: [None]
    when the call never returns, otherwise the return time and the error. *)
Definition run_result : Type := option (nat * option error).

(** ** Package windows_exporter, non-Windows build *)

Module windows_exporter.

(** [Integration.Run]: wait for the context to finish, return [ctx.Err()]. *)
Definition Run (ctx : Context) (now : nat) : run_result :=
  t ← context.Done_recv ctx now;
  Some (t, context.Err ctx t).

End windows_exporter.

(** ** Packages net/http, log and prometheus/common/model *)

Module http.

(** A handler maps a request (its path) to the status code it answers. *)
Definition Handler : Type := string → nat.

Definition StatusNotFound : nat := 404.

(** [http.NotFoundHandler()]: every request is answered 404. *)
Definition NotFoundHandler : Handler := λ _, StatusNotFound.

End http.

Module log.

(** A logger is opaque to the adapter, which only passes it on. *)
Inductive Logger : Type := mkLogger (name : string).

End log.

Module model.

(** [model.JobLabel]. *)
Definition JobLabel : string := "job".

(** [model.LabelSet]: label name to label value, names unique. *)
Abbreviation LabelSet := (gmap string string).

End model.

(** ** Package common: the settings shared by every wrapped config *)

Module common.

(** Modelled from the spec: the global autoscrape defaults
    ([autoscrape.Global]) are not among the sources; the spec gives them as
    the default autoscrape cadence of the process. *)
Record Global : Type := { DefaultCadence : nat }.

(** Modelled from the spec: [common.MetricsConfig] is not among the
    sources. The spec gives Common Settings as an autoscrape cadence,
    derived from the global defaults unless the user set it, and an
    optional explicit instance key. The source reads and writes the field
    [InstanceKey] of type [*string]. *)
Record MetricsConfig : Type := {
  Autoscrape : option nat;
  InstanceKey : option string;
}.

(** Modelled from the spec: [MetricsConfig.ApplyDefaults] is not among the
    sources. It applies the global autoscrape defaults only where the user
    did not override them; an explicit value takes precedence. *)
Definition ApplyDefaults (mc : MetricsConfig) (g : Global) : MetricsConfig :=
  {| Autoscrape :=
       match Autoscrape mc with
       | Some cadence => Some cadence
       | None => Some (DefaultCadence g)
       end;
     InstanceKey := InstanceKey mc |}.

End common.

(** ** Package shared: the legacy (v1) contract *)

Module shared.

(** [config.ScrapeConfig]: job name and relative metrics path. *)
Record ScrapeConfig : Type := { JobName : string; MetricsPath : string }.

(** [shared.Integration], the legacy capability. [MetricsHandler] returns
    a handler and an error, either of which may be nil. The slice of
    [ScrapeConfigs] is only measured and ranged over, so a nil slice and an
    empty one are the same list. *)
Record Integration : Type := {
  MetricsHandler : option http.Handler * option error;
  ScrapeConfigs : list ScrapeConfig;
  Run : Context → nat → run_result;
}.

(** [shared.Globals]. *)
Record Globals : Type := {
  Autoscrape : common.Global;
  AgentIdentifier : string;
}.

(** [shared.Config], the legacy config of one exporter: its name, its
    instance-key function and its constructor. *)
Record Config : Type := {
  Name : string;
  InstanceKey : string → string * option error;
  NewIntegration : log.Logger → Integration + error;
}.

End shared.

(** ** Package v2: the generated adapter *)

(** The exporter kinds that are wrapped, in the order of the fields of
    [Integrations]. *)
Inductive Kind : Type :=
| Cadvisor | ConsulExporter | DnsmasqExporter | ElasticsearchExporter
| GithubExporter | KafkaExporter | MemcachedExporter | MongodbExporter
| MysqldExporter | NodeExporter | PostgresExporter | ProcessExporter
| RedisExporter | StatsdExporter | WindowsExporter.

#[global] Instance Kind_eq_dec : EqDecision Kind.
Proof. solve_decision. Defined.

(** The struct generated for kind [k] ([type Cadvisor struct], ...): the
    embedded legacy config and the inlined common settings. *)
Record Exporter (k : Kind) : Type := {
  Config : shared.Config;
  Cmn : common.MetricsConfig;
}.
Arguments Config {k} _.
Arguments Cmn {k} _.

(** [type Agent struct]: the embedded v2 agent config, of which the adapter
    uses the common settings. *)
Record Agent : Type := { Common : common.MetricsConfig }.

(** [type newIntegration] and [type configInstance]. *)
Definition newIntegration : Type := log.Logger → shared.Integration + error.
Definition configInstance : Type := string → string * option error.

Module configWrapper.

(** [type configWrapper struct]. The field [cfg] holds a pointer to one of
    the generated structs as a [shared.Config]: the kind is its dynamic
    type. *)
Record t : Type := {
  cfg : { k : Kind & Exporter k };
  cmn : common.MetricsConfig;
  configInstanceFunc : configInstance;
  newInstanceFunc : newIntegration;
}.

(** [Identifier]: the cached key if there is one, else the per-kind
    function applied to the agent-wide identifier. *)
Definition Identifier (c : t) (globals : shared.Globals) : string * option error :=
  match common.InstanceKey (cmn c) with
  | Some key => (key, None)
  | None => configInstanceFunc c (shared.AgentIdentifier globals)
  end.

(** [ApplyDefaults] mutates the receiver: the new receiver comes with the
    returned error. *)
Definition ApplyDefaults (c : t) (globals : shared.Globals) : t * option error :=
  let c := {| cfg := cfg c;
              cmn := common.ApplyDefaults (cmn c) (shared.Autoscrape globals);
              configInstanceFunc := configInstanceFunc c;
              newInstanceFunc := newInstanceFunc c |} in
  let c :=
    match Identifier c globals with
    | (id, None) =>
        {| cfg := cfg c;
           cmn := {| common.Autoscrape := common.Autoscrape (cmn c);
                     common.InstanceKey := Some id |};
           configInstanceFunc := configInstanceFunc c;
           newInstanceFunc := newInstanceFunc c |}
    | (_, Some _) => c
    end in
  (c, None).

Definition Name (c : t) : string := shared.Name (Config (projT2 (cfg c))).

Definition Common (c : t) : common.MetricsConfig := cmn c.

End configWrapper.

(** [newConfigWrapper]. *)
Definition newConfigWrapper (cfg : { k : Kind & Exporter k }) (cmn : common.MetricsConfig)
    (ni : newIntegration) (ci : configInstance) : configWrapper.t :=
  {| configWrapper.cfg := cfg;
     configWrapper.cmn := cmn;
     configWrapper.configInstanceFunc := ci;
     configWrapper.newInstanceFunc := ni |}.

(** [type handlerTarget struct]. *)
Record handlerTarget : Type := {
  MetricsPath : string;
  Labels : model.LabelSet;
}.

(** [type metricsHandlerIntegration struct]. The handler is an interface
    value and the targets a slice, both of which could be nil. *)
Record metricsHandlerIntegration : Type := {
  integrationName : string;
  instanceID : string;
  common : common.MetricsConfig;
  globals : shared.Globals;
  handler : option http.Handler;
  targets : option (list handlerTarget);
  runFunc : Context → nat → run_result;
}.

(** The closure [runFunc] of [newIntegrationFromV1]: run the legacy
    integration, then hide a cancellation error that comes with a finished
    context. [ctx.Err()] is read when the legacy [Run] has returned. *)
Definition newIntegrationFromV1_runFunc (v1Integration : shared.Integration)
    (ctx : Context) (now : nat) : run_result :=
  '(t, err) ← shared.Run v1Integration ctx now;
  Some (t,
        match err with
        | None => None
        | Some e =>
            if errors.Is e errors.Canceled && bool_decide (context.Err ctx t ≠ None)
            then None
            else Some e
        end).

(** [newIntegrationFromV1]. The receiver [c] is the [*configWrapper] whose
    [Cfg()] is itself. *)
Definition newIntegrationFromV1 (c : configWrapper.t) (logger : log.Logger)
    (globals : shared.Globals) (newInt : newIntegration)
    : option metricsHandlerIntegration * option error :=
  match newInt logger with
  | inr err => (None, Some err)
  | inl v1Integration =>
      match configWrapper.Identifier c globals with
      | (_, Some err) => (None, Some err)
      | (id, None) =>
          match shared.MetricsHandler v1Integration with
          | (_, Some err) => (None, Some (errors.Errorf_w "generating http handler: " err))
          | (handler, None) =>
              let handler :=
                match handler with
                | None => http.NotFoundHandler
                | Some h => h
                end in
              let v1ScrapeConfigs := shared.ScrapeConfigs v1Integration in
              let targets :=
                foldl (λ targets sc,
                         targets ++
                         [{| MetricsPath := shared.MetricsPath sc;
                             Labels := {[ model.JobLabel :=
                                            "integrations/" +:+ shared.JobName sc ]} |}])
                      [] v1ScrapeConfigs in
              (Some {| integrationName := configWrapper.Name c;
                       instanceID := id;
                       common := configWrapper.Common c;
                       globals := globals;
                       handler := Some handler;
                       targets := Some targets;
                       runFunc := newIntegrationFromV1_runFunc v1Integration |},
               None)
          end
      end
  end.

(** [configWrapper.NewIntegration]. *)
Definition configWrapper_NewIntegration (c : configWrapper.t) (logger : log.Logger)
    (globals : shared.Globals) : option metricsHandlerIntegration * option error :=
  newIntegrationFromV1 c logger globals (configWrapper.newInstanceFunc c).

(** The values of interface type [Config] that the registry hands out: an
    [*Agent], a [*configWrapper], some other implementation (the test
    configs), or the nil interface. *)
Inductive IConfig : Type :=
| AgentConfig (a : Agent)
| WrapperConfig (w : configWrapper.t)
| OtherConfig (name : string)
| NilConfig.

Module Integrations.

(** [type Integrations struct]: a pointer field is an [option], a slice of
    pointers a list of [option]s. *)
Record t : Type := {
  Agent : option Agent;
  Cadvisor : option (Exporter Cadvisor);
  ConsulExporterConfigs : list (option (Exporter ConsulExporter));
  DnsmasqExporterConfigs : list (option (Exporter DnsmasqExporter));
  ElasticsearchExporterConfigs : list (option (Exporter ElasticsearchExporter));
  GithubExporterConfigs : list (option (Exporter GithubExporter));
  KafkaExporterConfigs : list (option (Exporter KafkaExporter));
  MemcachedExporterConfigs : list (option (Exporter MemcachedExporter));
  MongodbExporterConfigs : list (option (Exporter MongodbExporter));
  MysqldExporterConfigs : list (option (Exporter MysqldExporter));
  NodeExporter : option (Exporter NodeExporter);
  PostgresExporterConfigs : list (option (Exporter PostgresExporter));
  ProcessExporter : option (Exporter ProcessExporter);
  RedisExporterConfigs : list (option (Exporter RedisExporter));
  StatsdExporter : option (Exporter StatsdExporter);
  WindowsExporter : option (Exporter WindowsExporter);
  TestConfigs : list IConfig;
}.

(** [newConfigWrapper(i, i.Cmn, i.NewIntegration, i.InstanceKey)] for a
    non-nil [i]. *)
Definition wrap {k : Kind} (i : Exporter k) : IConfig :=
  WrapperConfig
    (newConfigWrapper (existT k i) (Cmn i)
       (shared.NewIntegration (Config i)) (shared.InstanceKey (Config i))).

(** The [if v.X != nil { append }] of a singular slot. *)
Definition append_singular {k : Kind} (x : option (Exporter k))
    (activeConfigs : list IConfig) : list IConfig :=
  match x with
  | Some i => activeConfigs ++ [wrap i]
  | None => activeConfigs
  end.

(** The [for _, i := range v.XConfigs { append }] of a repeated slot.
    Reading [i.Cmn] through a nil [i] panics. *)
Fixpoint append_repeated {k : Kind} (xs : list (option (Exporter k)))
    (activeConfigs : list IConfig) : option (list IConfig) :=
  match xs with
  | [] => Some activeConfigs
  | i :: xs =>
      i ← i;
      append_repeated xs (activeConfigs ++ [wrap i])
  end.

(** [ActiveConfigs]. *)
Definition ActiveConfigs (v : t) : option (list IConfig) :=
  let activeConfigs := [] in
  let activeConfigs :=
    match Agent v with
    | Some a => activeConfigs ++ [AgentConfig a]
    | None => activeConfigs
    end in
  let activeConfigs := append_singular (Cadvisor v) activeConfigs in
  activeConfigs ← append_repeated (ConsulExporterConfigs v) activeConfigs;
  activeConfigs ← append_repeated (DnsmasqExporterConfigs v) activeConfigs;
  activeConfigs ← append_repeated (ElasticsearchExporterConfigs v) activeConfigs;
  activeConfigs ← append_repeated (GithubExporterConfigs v) activeConfigs;
  activeConfigs ← append_repeated (KafkaExporterConfigs v) activeConfigs;
  activeConfigs ← append_repeated (MemcachedExporterConfigs v) activeConfigs;
  activeConfigs ← append_repeated (MongodbExporterConfigs v) activeConfigs;
  activeConfigs ← append_repeated (MysqldExporterConfigs v) activeConfigs;
  let activeConfigs := append_singular (NodeExporter v) activeConfigs in
  activeConfigs ← append_repeated (PostgresExporterConfigs v) activeConfigs;
  let activeConfigs := append_singular (ProcessExporter v) activeConfigs in
  activeConfigs ← append_repeated (RedisExporterConfigs v) activeConfigs;
  let activeConfigs := append_singular (StatsdExporter v) activeConfigs in
  let activeConfigs := append_singular (WindowsExporter v) activeConfigs in
  Some (foldl (λ activeConfigs i, activeConfigs ++ [i]) activeConfigs (TestConfigs v)).

End Integrations.

(** *** The custom-unmarshaler guard *)

(** What a type assertion and the [%T] verb see of the dynamic type of an
    interface value: the printed name of the type, and whether the method set
    of that type has [UnmarshalYAML(func(interface{}) error) error], that is,
    whether a value of the type is a [yaml.Unmarshaler]. *)
Record GoType : Type := {
  type_string : string;
  has_UnmarshalYAML : bool;
}.

(** [implementsMarshaller]: its argument is an [interface{}], of which only
    the dynamic type is used. *)
Definition implementsMarshaller (i : GoType) : option error :=
  if has_UnmarshalYAML i
  then Some (errors.New (type_string i +:+ " cannot implement custom unmarshaler"))
  else None.

(** The generated [UnmarshalYAML] methods differ only in their first
    statement: all of them but those of [MongodbExporter], [PostgresExporter]
    and [Agent] start with [c.Config = pkg.DefaultConfig]. *)
Definition has_DefaultConfig (k : Kind) : bool :=
  match k with
  | MongodbExporter | PostgresExporter => false
  | _ => true
  end.

Section UnmarshalYAML.

(** The legacy packages are not among the sources: the type of the
    [Config] of each kind and its [DefaultConfig] are parameters. *)
Variable legacy_type : Kind → GoType.
Variable DefaultConfig : Kind → shared.Config.

(** [(c *X) UnmarshalYAML(unmarshal)] for the wrapped kind [k]. The callback
    [unmarshal] decodes the YAML node into the receiver, seen as a plain
    struct. The receiver as the method leaves it comes with the error. *)
Definition UnmarshalYAML {k : Kind} (c : Exporter k)
    (unmarshal : Exporter k → Exporter k * option error)
    : Exporter k * option error :=
  let c :=
    if has_DefaultConfig k
    then {| Config := DefaultConfig k; Cmn := Cmn c |}
    else c in
  match implementsMarshaller (legacy_type k) with
  | Some err => (c, Some err)
  | None => unmarshal c
  end.

(** [(c *Cadvisor) UnmarshalYAML]. *)
Definition Cadvisor_UnmarshalYAML (c : Exporter Cadvisor)
    (unmarshal : Exporter Cadvisor → Exporter Cadvisor * option error)
    : Exporter Cadvisor * option error :=
  let c := {| Config := DefaultConfig Cadvisor; Cmn := Cmn c |} in
  match implementsMarshaller (legacy_type Cadvisor) with
  | Some err => (c, Some err)
  | None => unmarshal c
  end.

(** [(c *Agent) UnmarshalYAML]: no default is assigned. *)
Definition Agent_UnmarshalYAML (agent_type : GoType) (c : Agent)
    (unmarshal : Agent → Agent * option error) : Agent * option error :=
  match implementsMarshaller agent_type with
  | Some err => (c, Some err)
  | None => unmarshal c
  end.

End UnmarshalYAML.

(** ** The specification's own definitions

    These follow the words of the specification, not the code; the theorems
    below compare them with the embedding above. *)

Module Spec.

(** Error masking as a function of the returned error and of the state of
    the context ([ctxErr], nil while the context is active): no error is
    success; a cancellation error under a finished context is success;
    anything else is passed on. *)
Definition masked (err ctxErr : option error) : option error :=
  match err, ctxErr with
  | None, _ => None
  | Some e, Some _ => if errors.Is e errors.Canceled then None else Some e
  | Some e, None => Some e
  end.

(** The slots of the registry, and their static priority order. *)
Inductive Slot : Type :=
| AgentSlot
| KindSlot (k : Kind)
| TestSlot.

Definition priority : list Slot :=
  [ AgentSlot;
    KindSlot Cadvisor; KindSlot ConsulExporter; KindSlot DnsmasqExporter;
    KindSlot ElasticsearchExporter; KindSlot GithubExporter;
    KindSlot KafkaExporter; KindSlot MemcachedExporter;
    KindSlot MongodbExporter; KindSlot MysqldExporter; KindSlot NodeExporter;
    KindSlot PostgresExporter; KindSlot ProcessExporter;
    KindSlot RedisExporter; KindSlot StatsdExporter;
    KindSlot WindowsExporter;
    TestSlot ].

(** A singular slot holds one entry when it is present and none when it is
    absent. *)
Definition singular {A : Type} (x : option A) : list (option A) :=
  match x with
  | Some i => [Some i]
  | None => []
  end.

(** The entries declared for kind [k], in declaration order. *)
Definition entries (v : Integrations.t) (k : Kind) : list (option (Exporter k)) :=
  match k return list (option (Exporter k)) with
  | Cadvisor => singular (Integrations.Cadvisor v)
  | ConsulExporter => Integrations.ConsulExporterConfigs v
  | DnsmasqExporter => Integrations.DnsmasqExporterConfigs v
  | ElasticsearchExporter => Integrations.ElasticsearchExporterConfigs v
  | GithubExporter => Integrations.GithubExporterConfigs v
  | KafkaExporter => Integrations.KafkaExporterConfigs v
  | MemcachedExporter => Integrations.MemcachedExporterConfigs v
  | MongodbExporter => Integrations.MongodbExporterConfigs v
  | MysqldExporter => Integrations.MysqldExporterConfigs v
  | NodeExporter => singular (Integrations.NodeExporter v)
  | PostgresExporter => Integrations.PostgresExporterConfigs v
  | ProcessExporter => singular (Integrations.ProcessExporter v)
  | RedisExporter => Integrations.RedisExporterConfigs v
  | StatsdExporter => singular (Integrations.StatsdExporter v)
  | WindowsExporter => singular (Integrations.WindowsExporter v)
  end.

(** What one slot contributes: one Config per entry. *)
Definition contribution (v : Integrations.t) (s : Slot) : list IConfig :=
  match s with
  | AgentSlot =>
      match Integrations.Agent v with
      | Some a => [AgentConfig a]
      | None => []
      end
  | KindSlot k => Integrations.wrap <$> omap id (entries v k)
  | TestSlot => Integrations.TestConfigs v
  end.

(** The flattened list: the contributions of the slots in priority
    order. *)
Definition flattened (v : Integrations.t) : list IConfig :=
  s ← priority; contribution v s.

(** The number of entries declared in the whole configuration. *)
Definition declared (v : Integrations.t) : nat :=
  sum_list ((λ s, match s with
                  | AgentSlot => match Integrations.Agent v with Some _ => 1 | None => 0 end
                  | KindSlot k => length (entries v k)
                  | TestSlot => length (Integrations.TestConfigs v)
                  end) <$> priority).

(** No entry of a kind is a nil pointer. *)
Definition no_nil_entry (v : Integrations.t) : bool :=
  forallb (λ s, match s with
                | KindSlot k => forallb (λ i : option (Exporter k), bool_decide (is_Some i)) (entries v k)
                | _ => true
                end) priority.

End Spec.

(** ** Concrete configurations used by the examples *)

Module Examples.

Definition logger : log.Logger := log.mkLogger "integrations".

Definition globals : shared.Globals :=
  {| shared.Autoscrape := {| common.DefaultCadence := 60 |};
     shared.AgentIdentifier := "agent-1:12345" |}.

(** A legacy capability with one scrape config, whose run loop is the one
    of the windows_exporter stub. *)
Definition integration (h : option http.Handler * option error) : shared.Integration :=
  {| shared.MetricsHandler := h;
     shared.ScrapeConfigs :=
       [ {| shared.JobName := "node_exporter"; shared.MetricsPath := "/metrics" |} ];
     shared.Run := windows_exporter.Run |}.

(** An instance-key function that uses the agent identifier, and one that
    cannot derive a name. *)
Definition agent_key : configInstance := λ agentKey, (agentKey, None).
Definition no_hostname : configInstance :=
  λ _, ("", Some (errors.New "hostname not available")).

Definition legacy (name : string) (ci : configInstance)
    (h : option http.Handler * option error) : shared.Config :=
  {| shared.Name := name;
     shared.InstanceKey := ci;
     shared.NewIntegration := λ _, inl (integration h) |}.

Definition unset : common.MetricsConfig :=
  {| common.Autoscrape := None; common.InstanceKey := None |}.

Definition keyed (key : string) : common.MetricsConfig :=
  {| common.Autoscrape := Some 15; common.InstanceKey := Some key |}.

Definition exporter (k : Kind) (name : string) (ci : configInstance)
    (cmn : common.MetricsConfig) : Exporter k :=
  {| Config := legacy name ci (None, None); Cmn := cmn |}.

Definition wrapper {k : Kind} (i : Exporter k) : configWrapper.t :=
  newConfigWrapper (existT k i) (Cmn i)
    (shared.NewIntegration (Config i)) (shared.InstanceKey (Config i)).

Definition empty : Integrations.t :=
  {| Integrations.Agent := None;
     Integrations.Cadvisor := None;
     Integrations.ConsulExporterConfigs := [];
     Integrations.DnsmasqExporterConfigs := [];
     Integrations.ElasticsearchExporterConfigs := [];
     Integrations.GithubExporterConfigs := [];
     Integrations.KafkaExporterConfigs := [];
     Integrations.MemcachedExporterConfigs := [];
     Integrations.MongodbExporterConfigs := [];
     Integrations.MysqldExporterConfigs := [];
     Integrations.NodeExporter := None;
     Integrations.PostgresExporterConfigs := [];
     Integrations.ProcessExporter := None;
     Integrations.RedisExporterConfigs := [];
     Integrations.StatsdExporter := None;
     Integrations.WindowsExporter := None;
     Integrations.TestConfigs := [] |}.

Definition node : Exporter NodeExporter :=
  exporter NodeExporter "node_exporter" agent_key unset.
Definition redis (addr : string) : Exporter RedisExporter :=
  exporter RedisExporter "redis_exporter" agent_key (keyed addr).

(** One singular slot filled and one repeated slot with two entries. *)
Definition one_and_two : Integrations.t :=
  {| Integrations.Agent := None;
     Integrations.Cadvisor := None;
     Integrations.ConsulExporterConfigs := [];
     Integrations.DnsmasqExporterConfigs := [];
     Integrations.ElasticsearchExporterConfigs := [];
     Integrations.GithubExporterConfigs := [];
     Integrations.KafkaExporterConfigs := [];
     Integrations.MemcachedExporterConfigs := [];
     Integrations.MongodbExporterConfigs := [];
     Integrations.MysqldExporterConfigs := [];
     Integrations.NodeExporter := Some node;
     Integrations.PostgresExporterConfigs := [];
     Integrations.ProcessExporter := None;
     Integrations.RedisExporterConfigs :=
       [Some (redis "redis-a:6379"); Some (redis "redis-b:6379")];
     Integrations.StatsdExporter := None;
     Integrations.WindowsExporter := None;
     Integrations.TestConfigs := [] |}.

(** A repeated slot with a null entry, as [consul_exporter_configs: [~]]
    decodes. *)
Definition null_entry : Integrations.t :=
  {| Integrations.Agent := None;
     Integrations.Cadvisor := None;
     Integrations.ConsulExporterConfigs := [None];
     Integrations.DnsmasqExporterConfigs := [];
     Integrations.ElasticsearchExporterConfigs := [];
     Integrations.GithubExporterConfigs := [];
     Integrations.KafkaExporterConfigs := [];
     Integrations.MemcachedExporterConfigs := [];
     Integrations.MongodbExporterConfigs := [];
     Integrations.MysqldExporterConfigs := [];
     Integrations.NodeExporter := None;
     Integrations.PostgresExporterConfigs := [];
     Integrations.ProcessExporter := None;
     Integrations.RedisExporterConfigs := [];
     Integrations.StatsdExporter := None;
     Integrations.WindowsExporter := None;
     Integrations.TestConfigs := [] |}.

(** Legacy packages in which the cadvisor config type has a custom
    unmarshaler with a value receiver. *)
Definition legacy_type (k : Kind) : GoType :=
  match k with
  | Cadvisor => {| type_string := "cadvisor.Config"; has_UnmarshalYAML := true |}
  | _ => {| type_string := "Config"; has_UnmarshalYAML := false |}
  end.

Definition DefaultConfig (k : Kind) : shared.Config :=
  legacy "default" agent_key (None, None).



End Examples.

(** ** Definitions used by the further properties *)

(** The configuration [v] without its test configs. *)
Definition without_TestConfigs (v : Integrations.t) : Integrations.t :=
  {| Integrations.Agent := Integrations.Agent v;
     Integrations.Cadvisor := Integrations.Cadvisor v;
     Integrations.ConsulExporterConfigs := Integrations.ConsulExporterConfigs v;
     Integrations.DnsmasqExporterConfigs := Integrations.DnsmasqExporterConfigs v;
     Integrations.ElasticsearchExporterConfigs :=
       Integrations.ElasticsearchExporterConfigs v;
     Integrations.GithubExporterConfigs := Integrations.GithubExporterConfigs v;
     Integrations.KafkaExporterConfigs := Integrations.KafkaExporterConfigs v;
     Integrations.MemcachedExporterConfigs := Integrations.MemcachedExporterConfigs v;
     Integrations.MongodbExporterConfigs := Integrations.MongodbExporterConfigs v;
     Integrations.MysqldExporterConfigs := Integrations.MysqldExporterConfigs v;
     Integrations.NodeExporter := Integrations.NodeExporter v;
     Integrations.PostgresExporterConfigs := Integrations.PostgresExporterConfigs v;
     Integrations.ProcessExporter := Integrations.ProcessExporter v;
     Integrations.RedisExporterConfigs := Integrations.RedisExporterConfigs v;
     Integrations.StatsdExporter := Integrations.StatsdExporter v;
     Integrations.WindowsExporter := Integrations.WindowsExporter v;
     Integrations.TestConfigs := [] |}.

(** A legacy capability that differs from [v1Integration] in its run loop
    only. *)
Definition with_Run (v1Integration : shared.Integration)
    (run : Context → nat → run_result) : shared.Integration :=
  {| shared.MetricsHandler := shared.MetricsHandler v1Integration;
     shared.ScrapeConfigs := shared.ScrapeConfigs v1Integration;
     shared.Run := run |}.

(** [err] wrapped once per message of [msgs], the first message outermost. *)
Definition wrapped (msgs : list string) (err : error) : error :=
  foldr errors.wrapError err msgs.

(** The receiver with which a method of a struct type is declared. *)
Inductive receiver : Type := ValueReceiver | PointerReceiver.

(** A named struct type of a legacy package, with the receiver of its
    [UnmarshalYAML] method when it declares one. *)
Record StructType : Type := {
  struct_name : string;
  UnmarshalYAML_receiver : option receiver;
}.

(** The dynamic type of a struct value of type [T] stored in an interface,
    as in [implementsMarshaller(c.Config)]: the method set of [T] holds the
    methods declared with a value receiver only. *)
Definition value_type (T : StructType) : GoType :=
  {| type_string := struct_name T;
     has_UnmarshalYAML :=
       match UnmarshalYAML_receiver T with
       | Some ValueReceiver => true
       | Some PointerReceiver | None => false
       end |}.

(** The dynamic type of a pointer to such a value, which is what the YAML
    decoder holds: the method set of [*T] holds every method of [T]. *)
Definition pointer_type (T : StructType) : GoType :=
  {| type_string := "*" +:+ struct_name T;
     has_UnmarshalYAML :=
       match UnmarshalYAML_receiver T with
       | Some _ => true
       | None => false
       end |}.

(** * Theorems *)

(** ** The error-masking run function *)

Section RunFunc.

Implicit Types (ctx : Context) (e : error).

Lemma Is_refl e : errors.Is e e = true.
Proof.
  destruct e; cbn [errors.Is]; apply orb_true_intro; left;
    by apply bool_decide_eq_true_2.
Qed.

(** [errors.Is] looks through every layer of wrapping. *)
Lemma Is_wrapped msg e target :
  errors.Is e target = true → errors.Is (errors.wrapError msg e) target = true.
Proof. intros H. simpl. rewrite H. apply orb_true_r. Qed.

Lemma Err_is_Some ctx t :
  is_Some (context.Err ctx t) ↔ context.Err ctx t ≠ None.
Proof. rewrite <- not_eq_None_Some. done. Qed.

(** The closure computes the specification's masking function on the
    error returned by the legacy run loop and the state the context is in
    when that loop returns; it returns when the loop does, and never when
    the loop never returns. *)
Lemma runFunc_masked (v1 : shared.Integration) ctx now :
  newIntegrationFromV1_runFunc v1 ctx now =
  (λ '(t, err), (t, Spec.masked err (context.Err ctx t))) <$> shared.Run v1 ctx now.
Proof.
  unfold newIntegrationFromV1_runFunc.
  destruct (shared.Run v1 ctx now) as [[t err]|]; simpl; [|done].
  do 2 f_equal. destruct err as [e|]; simpl; [|done].
  destruct (context.Err ctx t) as [ce|] eqn:Hctx.
  - rewrite bool_decide_eq_true_2 by done. rewrite andb_true_r. done.
  - rewrite bool_decide_eq_false_2 by (intros H; apply H; done).
    rewrite andb_false_r. done.
Qed.

(** C1. The run function installed around a legacy [Run] is a case analysis
    on the error the legacy run returned and on the state of the context at
    that moment: a nil error gives nil; an error matching
    [context.Canceled] gives nil when the context is finished and is
    returned as it is while the context is active; any other error is
    returned unchanged. The result is the specification's function of this
    pair, so nothing else is consulted. *)
Theorem runFunc_case_analysis (v1 : shared.Integration) ctx now t err :
  shared.Run v1 ctx now = Some (t, err) →
  ∃ r, newIntegrationFromV1_runFunc v1 ctx now = Some (t, r) ∧
       r = Spec.masked err (context.Err ctx t) ∧
       (err = None → r = None) ∧
       (∀ e, err = Some e → errors.Is e errors.Canceled = true →
             context.Err ctx t ≠ None → r = None) ∧
       (∀ e, err = Some e → errors.Is e errors.Canceled = true →
             context.Err ctx t = None → r = Some e) ∧
       (∀ e, err = Some e → errors.Is e errors.Canceled = false → r = Some e).
Proof.
  intros Hrun. eexists. rewrite runFunc_masked, Hrun. simpl.
  split; [reflexivity|]. split; [reflexivity|].
  repeat split.
  - intros ->. done.
  - intros e -> His Hctx. simpl.
    destruct (context.Err ctx t); [|done]. rewrite His. done.
  - intros e -> _ ->. done.
  - intros e -> His. simpl. rewrite His. destruct (context.Err ctx t); done.
Qed.

Lemma runFunc_case_analysis_witness :
  shared.Run (Examples.integration (None, None)) (context.DoneAt 5 context.ByCancel) 0
    = Some (5, Some errors.Canceled) ∧
  newIntegrationFromV1_runFunc (Examples.integration (None, None))
    (context.DoneAt 5 context.ByCancel) 0 = Some (5, None).
Proof.
  split; [reflexivity|].
  destruct (runFunc_case_analysis (Examples.integration (None, None))
              (context.DoneAt 5 context.ByCancel) 0 5 (Some errors.Canceled) eq_refl)
    as (r & Hr & _ & _ & Hmask & _).
  rewrite Hr. rewrite (Hmask errors.Canceled); [reflexivity..|discriminate].
Defined.

(** A cancellation error under a still active context is a real failure:
    it comes out of the run function. *)
Lemma runFunc_active_not_masked (v1 : shared.Integration) t now e :
  shared.Run v1 context.Never now = Some (t, Some e) →
  newIntegrationFromV1_runFunc v1 context.Never now = Some (t, Some e).
Proof. intros H. rewrite runFunc_masked, H. done. Qed.

(** The stub's [Run] returns at the first moment, from the call on, at which
    the context is finished, with the error of the context; under a context
    that never finishes it never returns. *)
Lemma windows_exporter_Run_blocks ctx now :
  match windows_exporter.Run ctx now with
  | None => ctx = context.Never
  | Some (t, err) =>
      now ≤ t ∧ err = context.Err ctx t ∧ is_Some err ∧
      ∀ t', now ≤ t' → t' < t → context.Err ctx t' = None
  end.
Proof.
  destruct ctx as [|T why]; simpl; [done|].
  split; [lia|]. destruct (decide (T ≤ now `max` T)) as [_|Hn]; [|lia].
  split; [done|]. split; [eauto|].
  intros t' Hge Hlt. destruct (decide (T ≤ t')); [lia|done].
Qed.

(** C10. The non-Windows windows_exporter [Run], called under a context
    that is canceled at time [T], returns no earlier than [T] and returns
    [ctx.Err()], the non-nil [context.Canceled]; the run function built
    around it then returns nil: the legacy cancellation pattern is masked. *)
Theorem windows_exporter_Run_masked (v1 : shared.Integration) T now :
  shared.Run v1 = windows_exporter.Run →
  let ctx := context.DoneAt T context.ByCancel in
  ∃ t, T ≤ t ∧
       windows_exporter.Run ctx now = Some (t, context.Err ctx t) ∧
       context.Err ctx t = Some errors.Canceled ∧
       newIntegrationFromV1_runFunc v1 ctx now = Some (t, None).
Proof.
  intros Hrun ctx. exists (now `max` T).
  assert (Herr : context.Err ctx (now `max` T) = Some errors.Canceled).
  { subst ctx. simpl. destruct (decide (T ≤ now `max` T)); [done|lia]. }
  split; [lia|]. split; [done|]. split; [done|].
  rewrite runFunc_masked, Hrun. subst ctx. simpl.
  destruct (decide (T ≤ now `max` T)); [done|lia].
Qed.

Lemma windows_exporter_Run_masked_witness :
  shared.Run (Examples.integration (None, None)) = windows_exporter.Run ∧
  ∃ t, 7 ≤ t ∧
       windows_exporter.Run (context.DoneAt 7 context.ByCancel) 3
         = Some (t, context.Err (context.DoneAt 7 context.ByCancel) t) ∧
       context.Err (context.DoneAt 7 context.ByCancel) t = Some errors.Canceled ∧
       newIntegrationFromV1_runFunc (Examples.integration (None, None))
         (context.DoneAt 7 context.ByCancel) 3 = Some (t, None).
Proof.
  split; [reflexivity|].
  apply (windows_exporter_Run_masked (Examples.integration (None, None)) 7 3).
  reflexivity.
Defined.

(** When the context ends because its deadline passed, the stub returns
    [context.DeadlineExceeded], which does not match [context.Canceled] and
    is passed on. *)
Lemma windows_exporter_Run_deadline (v1 : shared.Integration) T now :
  shared.Run v1 = windows_exporter.Run →
  newIntegrationFromV1_runFunc v1 (context.DoneAt T context.ByDeadline) now
  = Some (now `max` T, Some errors.DeadlineExceeded).
Proof.
  intros Hrun. rewrite runFunc_masked, Hrun. simpl.
  destruct (decide (T ≤ now `max` T)); [done|lia].
Qed.

End RunFunc.

(** ** The composition registry *)

Section ActiveConfigs.

Implicit Types (v : Integrations.t) (k : Kind) (acc : list IConfig).

Lemma foldl_snoc {A : Type} (l start : list A) :
  foldl (λ collected i, collected ++ [i]) start l = start ++ l.
Proof.
  revert start. induction l as [|x l IH]; intros start; simpl.
  - by rewrite app_nil_r.
  - rewrite IH, <- app_assoc. done.
Qed.

Lemma append_singular_eq k (x : option (Exporter k)) acc :
  Integrations.append_singular x acc
  = acc ++ (Integrations.wrap <$> omap id (Spec.singular x)).
Proof. destruct x; simpl; [done|by rewrite app_nil_r]. Qed.

(** A loop over a repeated slot without nil entry appends one wrapper per
    entry, in order. *)
Lemma append_repeated_Some k (xs : list (option (Exporter k))) acc :
  Forall is_Some xs →
  Integrations.append_repeated xs acc = Some (acc ++ (Integrations.wrap <$> omap id xs)).
Proof.
  intros Hxs. revert acc. induction Hxs as [|x xs [i ->] _ IH]; intros acc; simpl.
  - by rewrite app_nil_r.
  - rewrite IH, <- app_assoc. done.
Qed.

(** A nil entry makes the loop panic, whatever was collected before. *)
Lemma append_repeated_None k (xs : list (option (Exporter k))) acc :
  None ∈ xs → Integrations.append_repeated xs acc = None.
Proof.
  intros Hin. revert acc. induction xs as [|x xs IH]; intros acc.
  - by apply elem_of_nil in Hin.
  - destruct x as [i|]; simpl; [|done].
    apply IH. apply elem_of_cons in Hin as [?|?]; done.
Qed.

Lemma omap_id_length {A : Type} (xs : list (option A)) :
  Forall is_Some xs → length (omap id xs) = length xs.
Proof. induction 1 as [|x xs [i ->] _ IH]; simpl; [done|by f_equal]. Qed.

Lemma no_nil_entry_Forall v :
  Spec.no_nil_entry v = true → ∀ k, Forall is_Some (Spec.entries v k).
Proof.
  unfold Spec.no_nil_entry. rewrite forallb_forall. intros Hall k.
  assert (Hk : In (Spec.KindSlot k) Spec.priority).
  { destruct k; simpl; tauto. }
  specialize (Hall _ Hk). simpl in Hall. rewrite forallb_forall in Hall.
  apply Forall_forall. intros i Hi. apply list_elem_of_In in Hi.
  specialize (Hall _ Hi). by apply bool_decide_eq_true in Hall.
Qed.

Lemma singular_Forall {A : Type} (x : option A) : Forall is_Some (Spec.singular x).
Proof. destruct x; simpl; eauto. Qed.

(** The length of the flattened list is the number of declared entries. *)
Lemma flattened_length v :
  (∀ k, Forall is_Some (Spec.entries v k)) →
  length (Spec.flattened v) = Spec.declared v.
Proof.
  intros Hall. unfold Spec.flattened, Spec.declared, Spec.priority.
  simpl. rewrite !length_app, !length_fmap.
  rewrite !omap_id_length by (first [apply (Hall Cadvisor) | apply (Hall ConsulExporter)
    | apply (Hall DnsmasqExporter) | apply (Hall ElasticsearchExporter)
    | apply (Hall GithubExporter) | apply (Hall KafkaExporter)
    | apply (Hall MemcachedExporter) | apply (Hall MongodbExporter)
    | apply (Hall MysqldExporter) | apply (Hall NodeExporter)
    | apply (Hall PostgresExporter) | apply (Hall ProcessExporter)
    | apply (Hall RedisExporter) | apply (Hall StatsdExporter)
    | apply (Hall WindowsExporter)]).
  destruct (Integrations.Agent v); simpl; lia.
Qed.

(** The code computes the specification's flattened list whenever no entry
    of a repeated slot is nil. *)
Lemma ActiveConfigs_refines v :
  (∀ k, Forall is_Some (Spec.entries v k)) →
  Integrations.ActiveConfigs v = Some (Spec.flattened v).
Proof.
  intros Hall. unfold Integrations.ActiveConfigs.
  rewrite (append_repeated_Some _ _ _ (Hall ConsulExporter)). simpl.
  rewrite (append_repeated_Some _ _ _ (Hall DnsmasqExporter)). simpl.
  rewrite (append_repeated_Some _ _ _ (Hall ElasticsearchExporter)). simpl.
  rewrite (append_repeated_Some _ _ _ (Hall GithubExporter)). simpl.
  rewrite (append_repeated_Some _ _ _ (Hall KafkaExporter)). simpl.
  rewrite (append_repeated_Some _ _ _ (Hall MemcachedExporter)). simpl.
  rewrite (append_repeated_Some _ _ _ (Hall MongodbExporter)). simpl.
  rewrite (append_repeated_Some _ _ _ (Hall MysqldExporter)). simpl.
  rewrite (append_repeated_Some _ _ _ (Hall PostgresExporter)). simpl.
  rewrite (append_repeated_Some _ _ _ (Hall RedisExporter)). simpl.
  rewrite foldl_snoc, !append_singular_eq.
  unfold Spec.flattened, Spec.priority. simpl.
  f_equal. rewrite app_nil_r, <- !app_assoc.
  destruct (Integrations.Agent v); done.
Qed.

Lemma Forall_no_nil_entry v :
  (∀ k, Forall is_Some (Spec.entries v k)) → Spec.no_nil_entry v = true.
Proof.
  intros Hall. unfold Spec.no_nil_entry. apply forallb_forall.
  intros [|k|] _; [done| |done].
  apply forallb_forall. intros i Hi. apply bool_decide_eq_true.
  specialize (Hall k). rewrite Forall_forall in Hall.
  apply Hall. by apply list_elem_of_In.
Qed.

(** [ActiveConfigs] returns exactly when no entry is nil: a nil entry in any
    repeated slot makes it panic. *)
Lemma ActiveConfigs_returns_iff v :
  is_Some (Integrations.ActiveConfigs v) ↔ Spec.no_nil_entry v = true.
Proof.
  split.
  - intros Hsome. apply Forall_no_nil_entry.
    unfold Integrations.ActiveConfigs in Hsome.
    repeat match type of Hsome with
    | context [Integrations.append_repeated ?xs ?acc] =>
        let H := fresh "Hxs" in
        destruct (decide (Forall is_Some xs)) as [H|H];
        [ rewrite (append_repeated_Some _ xs acc H) in Hsome; simpl in Hsome
        | apply not_Forall_Exists in H; [|apply _];
          apply Exists_exists in H as (i & Hi & Hnone);
          destruct i as [i|]; [destruct Hnone; eauto|];
          rewrite (append_repeated_None _ xs acc Hi) in Hsome;
          simpl in Hsome; by destruct Hsome ]
    end.
    intros []; simpl; first [assumption | apply singular_Forall].
  - intros Hv. rewrite ActiveConfigs_refines; [eauto|].
    by apply no_nil_entry_Forall.
Qed.

(** C2 (amended). For every [Integrations] value in which no entry of a
    repeated slot is a nil pointer, [ActiveConfigs] returns the flattened
    list: the contributions of the slots in the fixed priority order (Agent,
    Cadvisor, ConsulExporter, ..., WindowsExporter, TestConfigs), where a
    singular slot contributes one Config when it is non-nil and none
    otherwise, and a repeated slot one Config per element in declaration
    order; the list has as many Configs as entries are declared. *)
Theorem ActiveConfigs_flattened v :
  Spec.no_nil_entry v = true →
  Integrations.ActiveConfigs v = Some (Spec.flattened v) ∧
  (∀ k, length (Spec.contribution v (Spec.KindSlot k)) = length (Spec.entries v k)) ∧
  length (Spec.flattened v) = Spec.declared v.
Proof.
  intros Hv. pose proof (no_nil_entry_Forall v Hv) as Hall.
  split; [by apply ActiveConfigs_refines|]. split.
  - intros k. simpl. rewrite length_fmap. by apply omap_id_length.
  - by apply flattened_length.
Qed.

(** One singular slot filled and one repeated slot with two entries: three
    Configs, the node exporter before the two redis exporters. *)
Lemma ActiveConfigs_flattened_witness :
  Spec.no_nil_entry Examples.one_and_two = true ∧
  ∃ cfgs, Integrations.ActiveConfigs Examples.one_and_two = Some cfgs ∧
          cfgs = [ Integrations.wrap Examples.node;
                   Integrations.wrap (Examples.redis "redis-a:6379");
                   Integrations.wrap (Examples.redis "redis-b:6379") ] ∧
          length cfgs = 3.
Proof.
  split; [reflexivity|].
  destruct (ActiveConfigs_flattened Examples.one_and_two eq_refl) as (Hcfgs & _ & Hlen).
  exists (Spec.flattened Examples.one_and_two).
  split; [exact Hcfgs|]. split; [reflexivity|exact Hlen].
Defined.

(** The claim does not hold of every [Integrations] value: on a repeated
    slot that holds a nil pointer the loop dereferences it and
    [ActiveConfigs] panics, so no list is returned. *)
Lemma ActiveConfigs_null_entry_panics :
  Integrations.ActiveConfigs Examples.null_entry = None ∧
  ¬ (∀ v, Integrations.ActiveConfigs v = Some (Spec.flattened v)).
Proof.
  split; [reflexivity|].
  intros Hclaim. specialize (Hclaim Examples.null_entry). discriminate Hclaim.
Qed.

End ActiveConfigs.

(** ** The config wrapper: defaults and identity *)

Section ConfigWrapper.

Implicit Types (c : configWrapper.t) (g : shared.Globals).

(** The defaults of the common settings never touch the instance key, and
    applying them again changes nothing. *)
Lemma common_ApplyDefaults_InstanceKey (mc : common.MetricsConfig) (d : common.Global) :
  common.InstanceKey (common.ApplyDefaults mc d) = common.InstanceKey mc.
Proof. done. Qed.

Lemma common_ApplyDefaults_idempotent (mc : common.MetricsConfig) (d : common.Global) :
  common.ApplyDefaults (common.ApplyDefaults mc d) d = common.ApplyDefaults mc d.
Proof. destruct mc as [[cadence|] key]; done. Qed.

(** [Identifier] reads the wrapper only through its instance key and its
    instance-key function. *)
Lemma Identifier_ext c c' g :
  common.InstanceKey (configWrapper.cmn c) = common.InstanceKey (configWrapper.cmn c') →
  configWrapper.configInstanceFunc c = configWrapper.configInstanceFunc c' →
  configWrapper.Identifier c g = configWrapper.Identifier c' g.
Proof. unfold configWrapper.Identifier. by intros -> ->. Qed.

(** The wrapper that [ApplyDefaults] leaves behind, by the outcome of the
    identifier resolution: the defaults are applied to the common settings,
    and the key is set to the resolved identifier when there is one. *)
Lemma ApplyDefaults_unfold c g :
  configWrapper.ApplyDefaults c g =
  ({| configWrapper.cfg := configWrapper.cfg c;
      configWrapper.cmn :=
        {| common.Autoscrape :=
             common.Autoscrape
               (common.ApplyDefaults (configWrapper.cmn c) (shared.Autoscrape g));
           common.InstanceKey :=
             match configWrapper.Identifier c g with
             | (id, None) => Some id
             | (_, Some _) => common.InstanceKey (configWrapper.cmn c)
             end |};
      configWrapper.configInstanceFunc := configWrapper.configInstanceFunc c;
      configWrapper.newInstanceFunc := configWrapper.newInstanceFunc c |}, None).
Proof.
  unfold configWrapper.ApplyDefaults.
  set (c1 := {| configWrapper.cfg := configWrapper.cfg c;
                configWrapper.cmn := common.ApplyDefaults _ _ |}).
  rewrite (Identifier_ext c1 c g) by done.
  destruct (configWrapper.Identifier c g) as [id [e|]]; done.
Qed.

(** A failed resolution means that no key was set. *)
Lemma Identifier_error_unset c g s e :
  configWrapper.Identifier c g = (s, Some e) →
  common.InstanceKey (configWrapper.cmn c) = None.
Proof.
  unfold configWrapper.Identifier.
  destruct (common.InstanceKey (configWrapper.cmn c)); [discriminate|done].
Qed.

(** Resolving the identity after [ApplyDefaults] gives what it gave
    before. *)
Lemma Identifier_ApplyDefaults c g :
  configWrapper.Identifier (configWrapper.ApplyDefaults c g).1 g
  = configWrapper.Identifier c g.
Proof.
  rewrite ApplyDefaults_unfold. simpl.
  destruct (configWrapper.Identifier c g) as [id [e|]] eqn:Hid.
  - rewrite <- Hid. by apply Identifier_ext.
  - done.
Qed.

(** C3. Invoking [ApplyDefaults] twice leaves the wrapper, hence its common
    settings and its instance key, as one invocation leaves it, and returns
    the same. The key left by one invocation is the resolved identifier when
    the resolution succeeded, and resolving again returns that same
    identifier. *)
Theorem ApplyDefaults_idempotent c g :
  let once := configWrapper.ApplyDefaults c g in
  let twice := configWrapper.ApplyDefaults once.1 g in
  twice = once ∧
  configWrapper.cmn twice.1 = configWrapper.cmn once.1 ∧
  common.InstanceKey (configWrapper.cmn twice.1)
    = common.InstanceKey (configWrapper.cmn once.1) ∧
  configWrapper.Identifier once.1 g = configWrapper.Identifier c g ∧
  common.InstanceKey (configWrapper.cmn once.1) =
    match configWrapper.Identifier c g with
    | (id, None) => Some id
    | (_, Some _) => None
    end.
Proof.
  intros once twice.
  assert (Htwice : twice = once).
  { subst twice. rewrite (ApplyDefaults_unfold once.1 g).
    subst once. rewrite Identifier_ApplyDefaults.
    rewrite (ApplyDefaults_unfold c g). simpl.
    destruct (configWrapper.cmn c) as [[cadence|] key]; simpl;
      destruct (configWrapper.Identifier c g) as [id [e|]]; done. }
  rewrite Htwice. repeat split.
  - apply Identifier_ApplyDefaults.
  - subst once. rewrite ApplyDefaults_unfold. simpl.
    destruct (configWrapper.Identifier c g) as [id [e|]] eqn:Hid; [|done].
    by eapply Identifier_error_unset.
Qed.

(** C4. An explicit instance key is still there, with the same string,
    after [ApplyDefaults], whatever the global context. *)
Theorem ApplyDefaults_keeps_explicit_key c g key :
  common.InstanceKey (configWrapper.cmn c) = Some key →
  common.InstanceKey (configWrapper.cmn (configWrapper.ApplyDefaults c g).1) = Some key.
Proof.
  intros Hkey. rewrite ApplyDefaults_unfold. simpl.
  unfold configWrapper.Identifier. rewrite Hkey. done.
Qed.

Lemma ApplyDefaults_keeps_explicit_key_witness :
  common.InstanceKey (configWrapper.cmn (Examples.wrapper (Examples.redis "redis-a:6379")))
    = Some "redis-a:6379" ∧
  common.InstanceKey
    (configWrapper.cmn
       (configWrapper.ApplyDefaults (Examples.wrapper (Examples.redis "redis-a:6379"))
          Examples.globals).1) = Some "redis-a:6379".
Proof.
  split; [reflexivity|].
  apply (ApplyDefaults_keeps_explicit_key
           (Examples.wrapper (Examples.redis "redis-a:6379")) Examples.globals).
  reflexivity.
Defined.

(** C9. [ApplyDefaults] returns nil for every wrapper and global context.
    When the identifier resolution fails, the instance key is left unset;
    the failure shows again when [Identifier] is called on the wrapper, and
    [NewIntegration] returns it as soon as the legacy constructor has
    succeeded. When the resolution succeeds the key is the identifier. *)
Theorem ApplyDefaults_never_errors c g :
  (configWrapper.ApplyDefaults c g).2 = None ∧
  let c' := (configWrapper.ApplyDefaults c g).1 in
  match configWrapper.Identifier c g with
  | (s, Some e) =>
      common.InstanceKey (configWrapper.cmn c') = None ∧
      configWrapper.Identifier c' g = (s, Some e) ∧
      ∀ logger,
        configWrapper_NewIntegration c' logger g =
        match configWrapper.newInstanceFunc c logger with
        | inr e' => (None, Some e')
        | inl _ => (None, Some e)
        end
  | (id, None) => common.InstanceKey (configWrapper.cmn c') = Some id
  end.
Proof.
  split; [by rewrite ApplyDefaults_unfold|].
  intros c'. pose proof (Identifier_ApplyDefaults c g) as Hsame. fold c' in Hsame.
  assert (Hnew : configWrapper.newInstanceFunc c' = configWrapper.newInstanceFunc c).
  { subst c'. by rewrite ApplyDefaults_unfold. }
  destruct (configWrapper.Identifier c g) as [s [e|]] eqn:Hid.
  - split; [by eapply Identifier_error_unset|]. split; [done|].
    intros logger. unfold configWrapper_NewIntegration, newIntegrationFromV1.
    rewrite Hnew, Hsame. by destruct (configWrapper.newInstanceFunc c logger).
  - subst c'. rewrite ApplyDefaults_unfold. simpl. by rewrite Hid.
Qed.

(** A wrapper whose exporter cannot derive a name: [ApplyDefaults] reports
    nothing and leaves the key unset, [NewIntegration] then fails. *)
Example ApplyDefaults_drops_failure :
  let c := Examples.wrapper
             (Examples.exporter NodeExporter "node_exporter" Examples.no_hostname
                Examples.unset) in
  let '(c', err) := configWrapper.ApplyDefaults c Examples.globals in
  err = None ∧
  common.InstanceKey (configWrapper.cmn c') = None ∧
  common.Autoscrape (configWrapper.cmn c') = Some 60 ∧
  configWrapper_NewIntegration c' Examples.logger Examples.globals
    = (None, Some (errors.New "hostname not available")).
Proof. done. Qed.

End ConfigWrapper.

(** ** Building the runtime integration *)

Section NewIntegration.

Implicit Types (c : configWrapper.t) (g : shared.Globals) (logger : log.Logger).
Implicit Types (newInt : newIntegration) (integ : metricsHandlerIntegration).

(** The target made from one legacy scrape config. *)
Lemma foldl_targets {A B : Type} (f : A → B) (l : list A) (start : list B) :
  foldl (λ collected x, collected ++ [f x]) start l = start ++ (f <$> l).
Proof.
  revert start. induction l as [|x l IH]; intros start; simpl.
  - by rewrite app_nil_r.
  - rewrite IH, <- app_assoc. done.
Qed.

(** What [newIntegrationFromV1] returns once the three fallible steps have
    succeeded. *)
Lemma newIntegrationFromV1_success c logger g newInt
    (v1 : shared.Integration) (id : string) (h : option http.Handler) :
  newInt logger = inl v1 →
  configWrapper.Identifier c g = (id, None) →
  shared.MetricsHandler v1 = (h, None) →
  newIntegrationFromV1 c logger g newInt =
  (Some {| integrationName := configWrapper.Name c;
           instanceID := id;
           common := configWrapper.cmn c;
           globals := g;
           handler := Some (default http.NotFoundHandler h);
           targets :=
             Some ((λ sc, {| MetricsPath := shared.MetricsPath sc;
                             Labels := {[ model.JobLabel :=
                                            "integrations/" +:+ shared.JobName sc ]} |})
                   <$> shared.ScrapeConfigs v1);
           runFunc := newIntegrationFromV1_runFunc v1 |}, None).
Proof.
  intros Hnew Hid Hh. unfold newIntegrationFromV1.
  rewrite Hnew, Hid, Hh, foldl_targets. by destruct h.
Qed.

(** C5. When [NewIntegration] produces an integration, its targets
    correspond one to one, in order, to the scrape configs of the legacy
    capability: the target of a scrape config has the single label [job],
    whose value is ["integrations/"] followed by the job name of the scrape
    config, and has the metrics path of the scrape config. *)
Theorem newIntegrationFromV1_targets c logger g newInt (v1 : shared.Integration) integ :
  newInt logger = inl v1 →
  (newIntegrationFromV1 c logger g newInt).1 = Some integ →
  ∃ ts, targets integ = Some ts ∧
        length ts = length (shared.ScrapeConfigs v1) ∧
        ∀ (i : nat) (sc : shared.ScrapeConfig),
          shared.ScrapeConfigs v1 !! i = Some sc →
          ∃ tg, ts !! i = Some tg ∧
                Labels tg !! model.JobLabel = Some ("integrations/" +:+ shared.JobName sc) ∧
                Labels tg = {[ model.JobLabel := "integrations/" +:+ shared.JobName sc ]} ∧
                MetricsPath tg = shared.MetricsPath sc.
Proof.
  intros Hnew Hres.
  destruct (configWrapper.Identifier c g) as [id [e|]] eqn:Hid.
  { unfold newIntegrationFromV1 in Hres. rewrite Hnew, Hid in Hres. discriminate. }
  destruct (shared.MetricsHandler v1) as [h [e|]] eqn:Hh.
  { unfold newIntegrationFromV1 in Hres. rewrite Hnew, Hid, Hh in Hres. discriminate. }
  rewrite (newIntegrationFromV1_success c logger g newInt v1 id h Hnew Hid Hh) in Hres.
  simpl in Hres. injection Hres as <-. simpl.
  eexists. split; [reflexivity|]. split; [by rewrite length_fmap|].
  intros i sc Hsc. eexists. rewrite list_lookup_fmap, Hsc. simpl.
  split; [reflexivity|]. split; [apply lookup_singleton_eq|]. done.
Qed.

Lemma newIntegrationFromV1_targets_witness :
  let c := Examples.wrapper Examples.node in
  shared.NewIntegration (Config Examples.node) Examples.logger
    = inl (Examples.integration (None, None)) ∧
  ∃ integ,
    (newIntegrationFromV1 c Examples.logger Examples.globals
       (shared.NewIntegration (Config Examples.node))).1 = Some integ ∧
    ∃ ts, targets integ = Some ts ∧
          length ts = 1 ∧
          ∀ (i : nat) (sc : shared.ScrapeConfig),
            shared.ScrapeConfigs (Examples.integration (None, None)) !! i = Some sc →
            ∃ tg, ts !! i = Some tg ∧
                  Labels tg !! model.JobLabel
                    = Some ("integrations/" +:+ shared.JobName sc) ∧
                  Labels tg = {[ model.JobLabel := "integrations/" +:+ shared.JobName sc ]} ∧
                  MetricsPath tg = shared.MetricsPath sc.
Proof.
  intros c. split; [reflexivity|].
  eexists. split; [reflexivity|].
  apply (newIntegrationFromV1_targets c Examples.logger Examples.globals
           (shared.NewIntegration (Config Examples.node))
           (Examples.integration (None, None))); reflexivity.
Defined.

(** C7 (amended). When the legacy constructor returns a capability whose
    [MetricsHandler] returns (nil, nil) and the identifier of the config
    resolves, [newIntegrationFromV1] succeeds and the handler of the
    integration is the not-found handler, which answers 404 to every
    request. *)
Theorem newIntegrationFromV1_nil_handler c logger g newInt
    (v1 : shared.Integration) (id : string) :
  newInt logger = inl v1 →
  shared.MetricsHandler v1 = (None, None) →
  configWrapper.Identifier c g = (id, None) →
  ∃ integ, newIntegrationFromV1 c logger g newInt = (Some integ, None) ∧
           handler integ = Some http.NotFoundHandler ∧
           ∀ req, http.NotFoundHandler req = 404.
Proof.
  intros Hnew Hh Hid.
  rewrite (newIntegrationFromV1_success c logger g newInt v1 id None Hnew Hid Hh).
  eexists. split; [reflexivity|]. done.
Qed.

Lemma newIntegrationFromV1_nil_handler_witness :
  let c := Examples.wrapper Examples.node in
  let newInt := shared.NewIntegration (Config Examples.node) in
  newInt Examples.logger = inl (Examples.integration (None, None)) ∧
  shared.MetricsHandler (Examples.integration (None, None)) = (None, None) ∧
  configWrapper.Identifier c Examples.globals = ("agent-1:12345", None) ∧
  ∃ integ, newIntegrationFromV1 c Examples.logger Examples.globals newInt
             = (Some integ, None) ∧
           handler integ = Some http.NotFoundHandler ∧
           ∀ req, http.NotFoundHandler req = 404.
Proof.
  intros c newInt. do 3 (split; [reflexivity|]).
  apply (newIntegrationFromV1_nil_handler c Examples.logger Examples.globals newInt
           (Examples.integration (None, None)) "agent-1:12345"); reflexivity.
Defined.

(** The claim does not hold of every capability with a nil handler: the
    identifier is resolved before the handler is asked for, and when the
    resolution fails no integration is built. *)
Lemma newIntegrationFromV1_nil_handler_unresolved :
  let i := Examples.exporter NodeExporter "node_exporter" Examples.no_hostname
             Examples.unset in
  let c := Examples.wrapper i in
  let newInt := shared.NewIntegration (Config i) in
  newInt Examples.logger = inl (Examples.integration (None, None)) ∧
  shared.MetricsHandler (Examples.integration (None, None)) = (None, None) ∧
  newIntegrationFromV1 c Examples.logger Examples.globals newInt
    = (None, Some (errors.New "hostname not available")) ∧
  ¬ (∀ c logger g newInt (v1 : shared.Integration),
       newInt logger = inl v1 →
       shared.MetricsHandler v1 = (None, None) →
       ∃ integ, newIntegrationFromV1 c logger g newInt = (Some integ, None) ∧
                handler integ = Some http.NotFoundHandler).
Proof.
  intros i c newInt. do 3 (split; [reflexivity|]).
  intros Hclaim.
  destruct (Hclaim c Examples.logger Examples.globals newInt
              (Examples.integration (None, None)) eq_refl eq_refl) as (integ & Hres & _).
  discriminate Hres.
Qed.

(** C8. [newIntegrationFromV1] is all or nothing. It returns a nil
    integration and an error exactly when the legacy constructor, the
    identifier resolution or the metrics handler fails, and an integration
    and a nil error exactly when none of them does; it never returns both or
    neither. A returned integration has every field set: the name of the
    config, the resolved identifier, the common settings, the globals, a
    non-nil handler, a non-nil (possibly empty) slice of targets with one
    target per legacy scrape config, and the run function. *)
Theorem newIntegrationFromV1_all_or_nothing c logger g newInt :
  let failed :=
    (∃ e, newInt logger = inr e) ∨
    (∃ s e, configWrapper.Identifier c g = (s, Some e)) ∨
    (∃ (v1 : shared.Integration) h e,
        newInt logger = inl v1 ∧ shared.MetricsHandler v1 = (h, Some e)) in
  let r := newIntegrationFromV1 c logger g newInt in
  (failed ↔ ∃ err, r = (None, Some err)) ∧
  (¬ failed ↔ ∃ integ, r = (Some integ, None)) ∧
  match r with
  | (Some integ, None) =>
      integrationName integ = configWrapper.Name c ∧
      (instanceID integ, None) = configWrapper.Identifier c g ∧
      common integ = configWrapper.cmn c ∧
      globals integ = g ∧
      is_Some (handler integ) ∧
      (∃ ts (v1 : shared.Integration),
          targets integ = Some ts ∧ newInt logger = inl v1 ∧
          length ts = length (shared.ScrapeConfigs v1) ∧
          runFunc integ = newIntegrationFromV1_runFunc v1)
  | (None, Some _) => True
  | _ => False
  end.
Proof.
  intros failed r. subst failed r.
  destruct (newInt logger) as [v1|e0] eqn:Hnew.
  2:{ unfold newIntegrationFromV1. rewrite Hnew.
      split; [split; eauto|]. split; [|done].
      split; [intros H; destruct H; eauto|intros [? ?]; discriminate]. }
  destruct (configWrapper.Identifier c g) as [id [e1|]] eqn:Hid.
  { unfold newIntegrationFromV1. rewrite Hnew, Hid.
    split; [split; eauto 6|]. split; [|done].
    split; [intros H; destruct H; eauto 6|intros [? ?]; discriminate]. }
  destruct (shared.MetricsHandler v1) as [h [e2|]] eqn:Hh.
  { unfold newIntegrationFromV1. rewrite Hnew, Hid, Hh.
    split; [split; eauto 8|]. split; [|done].
    split; [intros H; destruct H; eauto 8|intros [? ?]; discriminate]. }
  rewrite (newIntegrationFromV1_success c logger g newInt v1 id h Hnew Hid Hh).
  assert (Hok : ¬ ((∃ e : error, @inl shared.Integration error v1 = inr e) ∨
                   (∃ (s : string) (e : error), (id, @None error) = (s, Some e)) ∨
                   (∃ (v1' : shared.Integration) h' (e : error),
                       @inl shared.Integration error v1 = inl v1' ∧
                       shared.MetricsHandler v1' = (h', Some e)))).
  { intros [[e ?]|[(s & e & ?)|(v1' & h' & e & Heq & Hh')]]; try discriminate.
    injection Heq as <-. rewrite Hh in Hh'. discriminate. }
  split; [split; [done|intros [? ?]; discriminate]|].
  split; [split; eauto|]. simpl.
  repeat split; [by destruct h; eauto|].
  eexists _, v1. repeat split. by rewrite length_fmap.
Qed.

End NewIntegration.

(** ** The custom-unmarshaler guard *)

Section Guard.

Variable legacy_type : Kind → GoType.
Variable DefaultConfig : Kind → shared.Config.

Lemma implementsMarshaller_error (i : GoType) :
  has_UnmarshalYAML i = true →
  ∃ err, implementsMarshaller i = Some err ∧
         errors.Error err = type_string i +:+ " cannot implement custom unmarshaler".
Proof. intros H. unfold implementsMarshaller. rewrite H. eauto. Qed.

Lemma implementsMarshaller_nil (i : GoType) :
  has_UnmarshalYAML i = false → implementsMarshaller i = None.
Proof. intros H. unfold implementsMarshaller. by rewrite H. Qed.

(** The method generated for cadvisor is the instance of the common shape. *)
Lemma Cadvisor_UnmarshalYAML_eq c unmarshal :
  Cadvisor_UnmarshalYAML legacy_type DefaultConfig c unmarshal
  = UnmarshalYAML legacy_type DefaultConfig c unmarshal.
Proof. done. Qed.

(** A legacy type without custom unmarshaler passes the guard: the decoder
    runs on the receiver that holds the defaults of the kind. *)
Lemma UnmarshalYAML_passes (k : Kind) (c : Exporter k) unmarshal :
  has_UnmarshalYAML (legacy_type k) = false →
  UnmarshalYAML legacy_type DefaultConfig c unmarshal =
  unmarshal (if has_DefaultConfig k
             then {| Config := DefaultConfig k; Cmn := Cmn c |}
             else c).
Proof.
  intros H. unfold UnmarshalYAML. rewrite (implementsMarshaller_nil _ H). done.
Qed.


(** The agent config has no default to assign: a rejected receiver is left
    as it was. *)
Lemma Agent_UnmarshalYAML_rejects (agent_type : GoType) (c : Agent) unmarshal :
  has_UnmarshalYAML agent_type = true →
  Agent_UnmarshalYAML agent_type c unmarshal =
  (c, Some (errors.New (type_string agent_type +:+ " cannot implement custom unmarshaler"))).
Proof. intros H. unfold Agent_UnmarshalYAML, implementsMarshaller. by rewrite H. Qed.

(** The guard sees the method set of the config value: it rejects a legacy
    type exactly when that type declares [UnmarshalYAML] with a value
    receiver. *)
Lemma value_type_has_UnmarshalYAML (T : StructType) :
  has_UnmarshalYAML (value_type T) = true ↔ UnmarshalYAML_receiver T = Some ValueReceiver.
Proof. simpl. destruct (UnmarshalYAML_receiver T) as [[|]|]; split; done. Qed.

(** A legacy type whose [UnmarshalYAML] has a pointer receiver is a YAML
    unmarshaler when the decoder reaches it through a pointer, but the guard
    does not see it: the check passes and the decoder runs. *)
Lemma UnmarshalYAML_pointer_receiver_passes (T : StructType) (k : Kind)
    (c : Exporter k) unmarshal :
  legacy_type k = value_type T →
  UnmarshalYAML_receiver T = Some PointerReceiver →
  has_UnmarshalYAML (pointer_type T) = true ∧
  implementsMarshaller (legacy_type k) = None ∧
  UnmarshalYAML legacy_type DefaultConfig c unmarshal =
  unmarshal (if has_DefaultConfig k
             then {| Config := DefaultConfig k; Cmn := Cmn c |}
             else c).
Proof.
  intros Hty Hrecv.
  assert (Hno : has_UnmarshalYAML (legacy_type k) = false).
  { rewrite Hty. simpl. rewrite Hrecv. done. }
  split; [by simpl; rewrite Hrecv|].
  split; [by apply implementsMarshaller_nil|]. by apply UnmarshalYAML_passes.
Qed.

End Guard.



(** * Further properties of the adapter *)

(** ** The composition registry *)

Section MoreActiveConfigs.

Implicit Types (v : Integrations.t) (k : Kind).

Lemma KindSlot_priority k : Spec.KindSlot k ∈ Spec.priority.
Proof. apply list_elem_of_In. destruct k; simpl; tauto. Qed.

Lemma entries_nil_or_not v :
  (∀ k, Forall is_Some (Spec.entries v k)) ∨ (∃ k, None ∈ Spec.entries v k).
Proof.
  assert (Hone : ∀ k, Forall is_Some (Spec.entries v k) ∨ None ∈ Spec.entries v k).
  { intros k. destruct (decide (Forall is_Some (Spec.entries v k))) as [H|H]; [by left|].
    right. apply not_Forall_Exists in H; [|apply _].
    apply Exists_exists in H as ([i|] & Hin & Hnot); [destruct Hnot; eauto|done]. }
  destruct (Hone Cadvisor); [|eauto]. destruct (Hone ConsulExporter); [|eauto].
  destruct (Hone DnsmasqExporter); [|eauto].
  destruct (Hone ElasticsearchExporter); [|eauto].
  destruct (Hone GithubExporter); [|eauto]. destruct (Hone KafkaExporter); [|eauto].
  destruct (Hone MemcachedExporter); [|eauto].
  destruct (Hone MongodbExporter); [|eauto]. destruct (Hone MysqldExporter); [|eauto].
  destruct (Hone NodeExporter); [|eauto]. destruct (Hone PostgresExporter); [|eauto].
  destruct (Hone ProcessExporter); [|eauto]. destruct (Hone RedisExporter); [|eauto].
  destruct (Hone StatsdExporter); [|eauto]. destruct (Hone WindowsExporter); [|eauto].
  left. intros []; assumption.
Qed.

(** X1. [ActiveConfigs] panics exactly when some repeated slot holds a nil
    pointer, wherever that entry stands and whatever the other slots hold. *)
Theorem ActiveConfigs_panics_iff v :
  Integrations.ActiveConfigs v = None ↔ ∃ k, None ∈ Spec.entries v k.
Proof.
  split.
  - intros Hnone. destruct (entries_nil_or_not v) as [Hall|Hex]; [|done].
    rewrite (ActiveConfigs_refines v Hall) in Hnone. discriminate.
  - intros [k Hin]. destruct (Integrations.ActiveConfigs v) as [cfgs|] eqn:Hsome; [|done].
    assert (Hv : Spec.no_nil_entry v = true).
    { apply ActiveConfigs_returns_iff. rewrite Hsome. eauto. }
    pose proof (no_nil_entry_Forall v Hv k) as Hall.
    rewrite Forall_forall in Hall. destruct (Hall None Hin) as [? ?]. discriminate.
Qed.

(** X2. What [ActiveConfigs] returns holds exactly the declared configs:
    the agent when it is set, the wrapper of every entry of every kind, and
    the test configs; nothing is dropped and nothing else is added. *)
Theorem ActiveConfigs_elem_of v cfgs (x : IConfig) :
  Integrations.ActiveConfigs v = Some cfgs →
  x ∈ cfgs ↔
    (∃ a, Integrations.Agent v = Some a ∧ x = AgentConfig a) ∨
    (∃ k (i : Exporter k), Some i ∈ Spec.entries v k ∧ x = Integrations.wrap i) ∨
    x ∈ Integrations.TestConfigs v.
Proof.
  intros Hsome.
  assert (Hv : Spec.no_nil_entry v = true).
  { apply ActiveConfigs_returns_iff. rewrite Hsome. eauto. }
  rewrite (ActiveConfigs_refines v (no_nil_entry_Forall v Hv)) in Hsome.
  injection Hsome as <-. unfold Spec.flattened. rewrite list_elem_of_bind. split.
  - intros ([|k|] & Hx & _); simpl in Hx.
    + left. destruct (Integrations.Agent v) as [a|]; [|by apply elem_of_nil in Hx].
      apply list_elem_of_singleton in Hx. eauto.
    + right; left. apply list_elem_of_fmap in Hx as (i & -> & Hi).
      apply list_elem_of_omap in Hi as ([i'|] & Hin & Heq); [|done].
      simpl in Heq. injection Heq as ->. eauto.
    + by right; right.
  - intros [(a & Ha & ->)|[(k & i & Hin & ->)|Hx]].
    + exists Spec.AgentSlot. simpl. rewrite Ha.
      split; [by apply list_elem_of_singleton|]. apply list_elem_of_In. simpl. tauto.
    + exists (Spec.KindSlot k). split; [|apply KindSlot_priority].
      simpl. apply list_elem_of_fmap. exists i. split; [done|].
      apply list_elem_of_omap. exists (Some i). done.
    + exists Spec.TestSlot. split; [done|]. apply list_elem_of_In. simpl. tauto.
Qed.

Lemma ActiveConfigs_elem_of_witness :
  Integrations.ActiveConfigs Examples.one_and_two
    = Some [ Integrations.wrap Examples.node;
             Integrations.wrap (Examples.redis "redis-a:6379");
             Integrations.wrap (Examples.redis "redis-b:6379") ] ∧
  (Integrations.wrap Examples.node ∈ [ Integrations.wrap Examples.node;
                 Integrations.wrap (Examples.redis "redis-a:6379");
                 Integrations.wrap (Examples.redis "redis-b:6379") ] ↔
   (∃ a, Integrations.Agent Examples.one_and_two = Some a ∧ Integrations.wrap Examples.node = AgentConfig a) ∨
   (∃ k (i : Exporter k),
       Some i ∈ Spec.entries Examples.one_and_two k ∧ Integrations.wrap Examples.node = Integrations.wrap i) ∨
   Integrations.wrap Examples.node ∈ Integrations.TestConfigs Examples.one_and_two).
Proof.
  split; [reflexivity|].
  apply (ActiveConfigs_elem_of Examples.one_and_two). reflexivity.
Defined.

(** X3. The test configs always come last and are appended as they are, a
    nil one included: [ActiveConfigs] is what it returns without them,
    followed by them; it panics with them exactly when it panics without. *)
Theorem ActiveConfigs_TestConfigs_last v :
  Integrations.ActiveConfigs v =
  (λ cfgs, cfgs ++ Integrations.TestConfigs v)
    <$> Integrations.ActiveConfigs (without_TestConfigs v).
Proof.
  unfold Integrations.ActiveConfigs, without_TestConfigs. simpl.
  repeat match goal with
  | |- context [Integrations.append_repeated ?xs ?acc] =>
      destruct (Integrations.append_repeated xs acc); simpl; [|done]
  end.
  by rewrite foldl_snoc.
Qed.

(** X4. [ActiveConfigs] returns the empty list exactly when nothing is
    declared: no agent, no entry of any kind and no test config. *)
Theorem ActiveConfigs_empty_iff v :
  Integrations.ActiveConfigs v = Some [] ↔
  Integrations.Agent v = None ∧ (∀ k, Spec.entries v k = []) ∧
  Integrations.TestConfigs v = [].
Proof.
  split.
  - intros Hsome.
    assert (Hin : ∀ x : IConfig, x ∈ @nil IConfig ↔
      (∃ a, Integrations.Agent v = Some a ∧ x = AgentConfig a) ∨
      (∃ k (i : Exporter k), Some i ∈ Spec.entries v k ∧ x = Integrations.wrap i) ∨
      x ∈ Integrations.TestConfigs v).
    { intros x. by apply ActiveConfigs_elem_of. }
    assert (Hnil : ∀ k, None ∉ Spec.entries v k).
    { intros k Hk. assert (Integrations.ActiveConfigs v = None) as Hnone.
      { apply ActiveConfigs_panics_iff. eauto. }
      rewrite Hnone in Hsome. discriminate. }
    split; [|split].
    + destruct (Integrations.Agent v) as [a|]; [|done].
      exfalso. apply (elem_of_nil (AgentConfig a)), Hin. eauto.
    + intros k. apply elem_of_nil_inv. intros [i|] Hi; [|by apply (Hnil k)].
      apply (elem_of_nil (Integrations.wrap i)), Hin. eauto 6.
    + apply elem_of_nil_inv. intros x Hx. apply (elem_of_nil x), Hin. eauto.
  - intros (Ha & Hk & Ht).
    rewrite ActiveConfigs_refines by (intros k; rewrite Hk; constructor).
    f_equal. apply elem_of_nil_inv. intros x Hx.
    unfold Spec.flattened in Hx. apply list_elem_of_bind in Hx as ([|k|] & Hx & _);
      simpl in Hx.
    + rewrite Ha in Hx. by apply elem_of_nil in Hx.
    + rewrite Hk in Hx. by apply elem_of_nil in Hx.
    + rewrite Ht in Hx. by apply elem_of_nil in Hx.
Qed.

End MoreActiveConfigs.

(** ** The config wrapper *)

Section MoreConfigWrapper.

Implicit Types (c : configWrapper.t) (g : shared.Globals) (logger : log.Logger).

(** X5. Once [ApplyDefaults] has resolved the identifier under some global
    context, the identity of the wrapper is fixed: under any other global
    context [Identifier] returns that same identifier without error, a
    further [ApplyDefaults] keeps it as the key, and every integration built
    from the wrapper carries it as its instance id. *)
Theorem ApplyDefaults_freezes_identity c g g' (id : string) :
  configWrapper.Identifier c g = (id, None) →
  let c' := (configWrapper.ApplyDefaults c g).1 in
  configWrapper.Identifier c' g' = (id, None) ∧
  common.InstanceKey (configWrapper.cmn (configWrapper.ApplyDefaults c' g').1) = Some id ∧
  ∀ logger integ,
    (configWrapper_NewIntegration c' logger g').1 = Some integ → instanceID integ = id.
Proof.
  intros Hid c'.
  assert (Hkey : common.InstanceKey (configWrapper.cmn c') = Some id).
  { subst c'. rewrite ApplyDefaults_unfold. simpl. by rewrite Hid. }
  assert (Hid' : configWrapper.Identifier c' g' = (id, None)).
  { unfold configWrapper.Identifier. by rewrite Hkey. }
  split; [done|]. split.
  - rewrite ApplyDefaults_unfold. simpl. by rewrite Hid'.
  - intros logger integ. unfold configWrapper_NewIntegration, newIntegrationFromV1.
    rewrite Hid'. destruct (configWrapper.newInstanceFunc c' logger) as [v1|e]; [|done].
    destruct (shared.MetricsHandler v1) as [h [e|]]; [done|].
    simpl. by intros [= <-].
Qed.

Lemma ApplyDefaults_freezes_identity_witness :
  let c := Examples.wrapper Examples.node in
  let g' := {| shared.Autoscrape := {| common.DefaultCadence := 30 |};
               shared.AgentIdentifier := "agent-2:80" |} in
  configWrapper.Identifier c Examples.globals = ("agent-1:12345", None) ∧
  configWrapper.Identifier c g' = ("agent-2:80", None) ∧
  let c' := (configWrapper.ApplyDefaults c Examples.globals).1 in
  configWrapper.Identifier c' g' = ("agent-1:12345", None) ∧
  common.InstanceKey (configWrapper.cmn (configWrapper.ApplyDefaults c' g').1)
    = Some "agent-1:12345" ∧
  ∀ logger integ,
    (configWrapper_NewIntegration c' logger g').1 = Some integ →
    instanceID integ = "agent-1:12345".
Proof.
  intros c g'. do 2 (split; [reflexivity|]).
  apply (ApplyDefaults_freezes_identity c Examples.globals g' "agent-1:12345").
  reflexivity.
Defined.

(** X6. [ApplyDefaults] changes nothing of the wrapper but its common
    settings: the wrapped config, its name, the instance-key function and the
    constructor stay, and [NewIntegration] succeeds or fails after it as it
    does before it, with the same error or with an integration that differs
    in its common settings only. *)
Theorem NewIntegration_after_ApplyDefaults c g logger :
  let c' := (configWrapper.ApplyDefaults c g).1 in
  configWrapper.cfg c' = configWrapper.cfg c ∧
  configWrapper.Name c' = configWrapper.Name c ∧
  configWrapper.configInstanceFunc c' = configWrapper.configInstanceFunc c ∧
  configWrapper.newInstanceFunc c' = configWrapper.newInstanceFunc c ∧
  (configWrapper_NewIntegration c' logger g).2
    = (configWrapper_NewIntegration c logger g).2 ∧
  match (configWrapper_NewIntegration c logger g).1,
        (configWrapper_NewIntegration c' logger g).1 with
  | Some i, Some i' =>
      integrationName i' = integrationName i ∧ instanceID i' = instanceID i ∧
      globals i' = globals i ∧ handler i' = handler i ∧ targets i' = targets i ∧
      runFunc i' = runFunc i ∧
      common i = configWrapper.cmn c ∧ common i' = configWrapper.cmn c'
  | None, None => True
  | _, _ => False
  end.
Proof.
  intros c'. pose proof (Identifier_ApplyDefaults c g) as Hsame. fold c' in Hsame.
  assert (Hc' : configWrapper.cfg c' = configWrapper.cfg c ∧
                configWrapper.configInstanceFunc c' = configWrapper.configInstanceFunc c ∧
                configWrapper.newInstanceFunc c' = configWrapper.newInstanceFunc c).
  { subst c'. by rewrite ApplyDefaults_unfold. }
  destruct Hc' as (Hcfg & Hci & Hni).
  assert (Hname : configWrapper.Name c' = configWrapper.Name c).
  { unfold configWrapper.Name. by rewrite Hcfg. }
  do 4 (split; [done|]).
  unfold configWrapper_NewIntegration, newIntegrationFromV1.
  rewrite Hni, Hsame, Hname.
  destruct (configWrapper.newInstanceFunc c logger) as [v1|e]; [|done].
  destruct (configWrapper.Identifier c g) as [id [e|]]; [done|].
  destruct (shared.MetricsHandler v1) as [h [e|]]; done.
Qed.

End MoreConfigWrapper.

(** ** Building the runtime integration *)

Section MoreNewIntegration.

Implicit Types (c : configWrapper.t) (g : shared.Globals) (logger : log.Logger).
Implicit Types (newInt : newIntegration) (integ : metricsHandlerIntegration).

(** X7. A failure of [MetricsHandler] comes back wrapped: the message is
    the legacy message after ["generating http handler: "], [errors.Unwrap]
    gives the legacy error back, and whatever [errors.Is] finds in the legacy
    error it finds in the returned one. A handler returned next to the error
    is ignored. *)
Theorem newIntegrationFromV1_handler_error c logger g newInt
    (v1 : shared.Integration) (id : string) (h : option http.Handler) (e : error) :
  newInt logger = inl v1 →
  configWrapper.Identifier c g = (id, None) →
  shared.MetricsHandler v1 = (h, Some e) →
  ∃ err, newIntegrationFromV1 c logger g newInt = (None, Some err) ∧
         errors.Error err = "generating http handler: " +:+ errors.Error e ∧
         errors.Unwrap err = Some e ∧
         ∀ target, errors.Is e target = true → errors.Is err target = true.
Proof.
  intros Hnew Hid Hh. unfold newIntegrationFromV1. rewrite Hnew, Hid, Hh.
  eexists. split; [reflexivity|]. split; [reflexivity|]. split; [reflexivity|].
  intros target. apply Is_wrapped.
Qed.

Lemma newIntegrationFromV1_handler_error_witness :
  let c := Examples.wrapper Examples.node in
  let broken := Examples.integration
                  (Some http.NotFoundHandler, Some (errors.New "no collectors")) in
  let newInt : newIntegration := λ _, inl broken in
  newInt Examples.logger = inl broken ∧
  configWrapper.Identifier c Examples.globals = ("agent-1:12345", None) ∧
  shared.MetricsHandler broken
    = (Some http.NotFoundHandler, Some (errors.New "no collectors")) ∧
  ∃ err, newIntegrationFromV1 c Examples.logger Examples.globals newInt = (None, Some err) ∧
         errors.Error err = "generating http handler: no collectors" ∧
         errors.Unwrap err = Some (errors.New "no collectors") ∧
         ∀ target, errors.Is (errors.New "no collectors") target = true →
                   errors.Is err target = true.
Proof.
  intros c broken newInt. do 3 (split; [reflexivity|]).
  apply (newIntegrationFromV1_handler_error c Examples.logger Examples.globals newInt
           broken "agent-1:12345" (Some http.NotFoundHandler)
           (errors.New "no collectors")); reflexivity.
Defined.

(** X8. Prefixing the job names keeps them apart: when the legacy scrape
    configs have pairwise distinct job names, the targets of the integration
    have pairwise distinct job labels. *)
Theorem newIntegrationFromV1_targets_distinct c logger g newInt
    (v1 : shared.Integration) integ :
  newInt logger = inl v1 →
  (newIntegrationFromV1 c logger g newInt).1 = Some integ →
  NoDup (shared.JobName <$> shared.ScrapeConfigs v1) →
  ∃ ts, targets integ = Some ts ∧
        NoDup ((λ tg, Labels tg !! model.JobLabel) <$> ts).
Proof.
  intros Hnew Hres Hnodup.
  destruct (configWrapper.Identifier c g) as [id [e|]] eqn:Hid.
  { unfold newIntegrationFromV1 in Hres. rewrite Hnew, Hid in Hres. discriminate. }
  destruct (shared.MetricsHandler v1) as [h [e|]] eqn:Hh.
  { unfold newIntegrationFromV1 in Hres. rewrite Hnew, Hid, Hh in Hres. discriminate. }
  rewrite (newIntegrationFromV1_success c logger g newInt v1 id h Hnew Hid Hh) in Hres.
  simpl in Hres. injection Hres as <-. simpl.
  eexists. split; [reflexivity|].
  rewrite <- list_fmap_compose.
  assert (Heq : ((λ tg, Labels tg !! model.JobLabel) ∘
                 (λ sc, {| MetricsPath := shared.MetricsPath sc;
                           Labels := {[ model.JobLabel :=
                                          "integrations/" +:+ shared.JobName sc ]} |}))
                <$> shared.ScrapeConfigs v1
                = (λ name, Some ("integrations/" +:+ name))
                  <$> (shared.JobName <$> shared.ScrapeConfigs v1)).
  { rewrite <- list_fmap_compose. apply list_fmap_ext. intros _ sc _. simpl.
    apply lookup_singleton_eq. }
  rewrite Heq. apply NoDup_fmap_2; [|done].
  intros a b Hab. apply (inj Some) in Hab.
  by apply (inj (String.app "integrations/")) in Hab.
Qed.

Lemma newIntegrationFromV1_targets_distinct_witness :
  let c := Examples.wrapper Examples.node in
  let two : shared.Integration :=
    {| shared.MetricsHandler := (None, None);
       shared.ScrapeConfigs :=
         [ {| shared.JobName := "redis_exporter"; shared.MetricsPath := "/metrics" |};
           {| shared.JobName := "redis_exporter/scripts";
              shared.MetricsPath := "/metrics" |} ];
       shared.Run := windows_exporter.Run |} in
  let newInt : newIntegration := λ _, inl two in
  newInt Examples.logger = inl two ∧
  NoDup (shared.JobName <$> shared.ScrapeConfigs two) ∧
  ∃ integ,
    (newIntegrationFromV1 c Examples.logger Examples.globals newInt).1 = Some integ ∧
    ∃ ts, targets integ = Some ts ∧
          length ts = 2 ∧
          NoDup ((λ tg, Labels tg !! model.JobLabel) <$> ts).
Proof.
  intros c two newInt. split; [reflexivity|].
  assert (Hnd : NoDup (shared.JobName <$> shared.ScrapeConfigs two)).
  { apply NoDup_cons. split; [|apply NoDup_singleton].
    intros Hin. apply list_elem_of_singleton in Hin. discriminate Hin. }
  split; [exact Hnd|].
  eexists. split; [reflexivity|].
  destruct (newIntegrationFromV1_targets_distinct c Examples.logger Examples.globals
              newInt two _ eq_refl eq_refl Hnd) as (ts & Hts & Hdistinct).
  exists ts. split; [exact Hts|]. split; [|exact Hdistinct].
  simpl in Hts. injection Hts as <-. reflexivity.
Defined.

End MoreNewIntegration.

(** ** The run function and the windows_exporter stub *)

Section MoreRunFunc.

Implicit Types (ctx : Context) (e : error).

Lemma Is_wrapped_Canceled (msgs : list string) :
  errors.Is (wrapped msgs errors.Canceled) errors.Canceled = true.
Proof.
  induction msgs as [|msg msgs IH]; [done|].
  unfold wrapped in *. simpl. exact IH.
Qed.

(** X9. The run function adds nothing of its own to the legacy run loop:
    it returns exactly when the loop returns, at that same time, and never
    when the loop never returns; an error it reports is the error the loop
    returned, unchanged. *)
Theorem runFunc_reports_only_legacy_errors (v1 : shared.Integration) ctx now :
  (newIntegrationFromV1_runFunc v1 ctx now = None ↔ shared.Run v1 ctx now = None) ∧
  (∀ t err, shared.Run v1 ctx now = Some (t, err) →
            ∃ r, newIntegrationFromV1_runFunc v1 ctx now = Some (t, r)) ∧
  (∀ t e, newIntegrationFromV1_runFunc v1 ctx now = Some (t, Some e) →
          shared.Run v1 ctx now = Some (t, Some e)).
Proof.
  rewrite runFunc_masked.
  destruct (shared.Run v1 ctx now) as [[t err]|]; simpl.
  - split; [done|]. split.
    + intros t' err' [= <- <-]. eauto.
    + intros t' e [= <- Hm]. do 2 f_equal.
      destruct err as [e'|]; [|done]. simpl in Hm.
      destruct (context.Err ctx t); [|done].
      destruct (errors.Is e' errors.Canceled); done.
  - split; [done|]. split; intros; discriminate.
Qed.

(** X11. A cancellation error is recognised through any number of wrapping
    layers, and it is hidden as soon as the context is finished, be it by
    cancellation or by its deadline; while the context is active it is
    returned with all its layers. *)
Theorem runFunc_masks_wrapped_cancellation (v1 : shared.Integration) ctx now t
    (msgs : list string) :
  shared.Run v1 ctx now = Some (t, Some (wrapped msgs errors.Canceled)) →
  newIntegrationFromV1_runFunc v1 ctx now =
  Some (t, match context.Err ctx t with
           | Some _ => None
           | None => Some (wrapped msgs errors.Canceled)
           end).
Proof.
  intros Hrun. rewrite runFunc_masked, Hrun. simpl.
  destruct (context.Err ctx t); [|done]. by rewrite Is_wrapped_Canceled.
Qed.

Lemma runFunc_masks_wrapped_cancellation_witness :
  let v1 := with_Run (Examples.integration (None, None))
              (λ _ now, Some (now, Some (errors.Errorf_w "scrape loop: " errors.Canceled))) in
  let ctx := context.DoneAt 2 context.ByDeadline in
  shared.Run v1 ctx 4
    = Some (4, Some (wrapped ["scrape loop: context canceled"] errors.Canceled)) ∧
  newIntegrationFromV1_runFunc v1 ctx 4 = Some (4, None).
Proof.
  intros v1 ctx. split; [reflexivity|].
  apply (runFunc_masks_wrapped_cancellation v1 ctx 4 4 ["scrape loop: context canceled"]).
  reflexivity.
Defined.

(** X12. The stub behind the run function, under every context: it never
    returns under a context that never finishes, reports a clean shutdown
    after a cancellation, and reports [context.DeadlineExceeded] as a failure
    when the context ended by its deadline. *)
Theorem wrapped_stub_outcome (v1 : shared.Integration) ctx now :
  shared.Run v1 = windows_exporter.Run →
  newIntegrationFromV1_runFunc v1 ctx now =
  match ctx with
  | context.Never => None
  | context.DoneAt T context.ByCancel => Some (now `max` T, None)
  | context.DoneAt T context.ByDeadline =>
      Some (now `max` T, Some errors.DeadlineExceeded)
  end.
Proof.
  intros Hrun. rewrite runFunc_masked, Hrun.
  destruct ctx as [|T [|]]; simpl; [done| |];
    destruct (decide (T ≤ now `max` T)); done || lia.
Qed.

Lemma wrapped_stub_outcome_witness :
  shared.Run (Examples.integration (None, None)) = windows_exporter.Run ∧
  newIntegrationFromV1_runFunc (Examples.integration (None, None))
    (context.DoneAt 9 context.ByDeadline) 1
  = Some (9, Some errors.DeadlineExceeded).
Proof.
  split; [reflexivity|].
  apply (wrapped_stub_outcome (Examples.integration (None, None))
           (context.DoneAt 9 context.ByDeadline) 1).
  reflexivity.
Defined.

(** X13. The [Run] of the stub returns if and only if its context is
    finished at some time; when it returns, it has waited from the call to
    the first moment at which [ctx.Err()] is non-nil and returns that error,
    so it never returns nil. *)
Theorem windows_exporter_Run_first_finished ctx now :
  (is_Some (windows_exporter.Run ctx now) ↔ ∃ t, is_Some (context.Err ctx t)) ∧
  ∀ t err,
    windows_exporter.Run ctx now = Some (t, err) →
    now ≤ t ∧ err = context.Err ctx t ∧ is_Some err ∧
    ∀ t', now ≤ t' → t' < t → context.Err ctx t' = None.
Proof.
  pose proof (windows_exporter_Run_blocks ctx now) as Hblocks. split.
  - destruct ctx as [|T why]; simpl.
    + split; [intros [? ?]; discriminate|intros [t [? ?]]; discriminate].
    + split; [|eauto]. intros _. exists T.
      destruct (decide (T ≤ T)); [eauto|lia].
  - intros t err Hrun. rewrite Hrun in Hblocks. exact Hblocks.
Qed.

End MoreRunFunc.
